(** * The frame-evaluator import shim of pydevd

    A verification model of
    [python/helpers/pydev/_pydevd_frame_eval/pydevd_frame_eval_cython_wrapper.py].

    The shim is straight-line module-level code: a [from ... import] of the
    default provider, and, under [except ImportError], a second attempt under
    a name derived from [sys.platform], [sys.version_info] and the size of
    [sys.maxsize].  It is embedded here as a program in a small state and
    exception monad.  The state holds the namespace of the shim module and
    the calls made to the interpreter; the interpreter itself (its import
    machinery and its [sys] module) is a parameter of the program. *)

From Stdlib Require Import ZArith Ascii DecimalString.
From stdpp Require Import base strings list gmap.

Local Open Scope string_scope.
Local Open Scope Z_scope.

(** ** Python values and exceptions *)

(** The exception classes the shim can meet.  [ModuleNotFoundError] is a
    subclass of [ImportError] (Python 3.6 and later); every other class is
    unrelated to [ImportError]. *)
Inductive exc_class : Type :=
| ImportError
| ModuleNotFoundError
| AttributeError
| TypeError
| ValueError
| OtherError (name : string).

(** An exception instance: its class and its argument.  The traceback and
    the [__context__] that Python 3 attaches to an exception raised inside
    a handler are not part of it. *)
Record exn : Type := Exn { exn_class : exc_class; exn_args : string }.

(** [isinstance(e, ImportError)], the test made by [except ImportError]. *)
Definition isinstance_ImportError (e : exn) : bool :=
  match exn_class e with
  | ImportError | ModuleNotFoundError => true
  | _ => false
  end.

(** The result of evaluating an expression or statement. *)
Inductive outcome (A : Type) : Type :=
| Normal (a : A)
| Raised (e : exn).
Arguments Normal {A} a.
Arguments Raised {A} e.

(** The objects the shim handles: the strings and the boolean it stores in
    its own namespace, functions (opaque, known by their qualified name) and
    modules with their dictionary. *)
#[warnings="-register-all"] Inductive value : Type :=
| VBool (b : bool)
| VStr (s : string)
| VFunc (qualname : string)
| VModule (name : string) (dict : list (string * value)).

Fixpoint dict_get (d : list (string * value)) (key : string) : option value :=
  match d with
  | [] => None
  | (k, v) :: d' => if String.eqb k key then Some v else dict_get d' key
  end.

(** [getattr(o, attr)] / [o.attr]: only modules carry attributes here. *)
Definition getattr (o : value) (attr : string) : outcome value :=
  match o with
  | VModule _ d =>
      match dict_get d attr with
      | Some v => Normal v
      | None => Raised (Exn AttributeError attr)
      end
  | _ => Raised (Exn AttributeError attr)
  end.

(** ** String formatting with [%] *)

(** The arguments the shim passes to [%]: strings and integers. *)
Inductive fmt_arg : Type :=
| ArgStr (s : string)
| ArgInt (z : Z).

(** [str(a)], what the [%s] directive prints. *)
Definition py_str (a : fmt_arg) : string :=
  match a with
  | ArgStr s => s
  | ArgInt z => NilZero.string_of_int (Z.to_int z)
  end.

Definition outcome_map {A B} (f : A → B) (o : outcome A) : outcome B :=
  match o with
  | Normal a => Normal (f a)
  | Raised e => Raised e
  end.

(** [fmt % args] for the directives [%s] and [%%]; too few or too many
    arguments raise [TypeError], another directive is outside this model
    and reported as [ValueError]. *)
Fixpoint percent_format (fmt : string) (args : list fmt_arg) : outcome string :=
  match fmt with
  | EmptyString =>
      match args with
      | [] => Normal EmptyString
      | _ :: _ => Raised (Exn TypeError "not all arguments converted during string formatting")
      end
  | String c rest =>
      if Ascii.eqb c "%"%char then
        match rest with
        | String d rest' =>
            if Ascii.eqb d "s"%char then
              match args with
              | a :: args' => outcome_map (String.append (py_str a)) (percent_format rest' args')
              | [] => Raised (Exn TypeError "not enough arguments for format string")
              end
            else if Ascii.eqb d "%"%char then
              outcome_map (String "%"%char) (percent_format rest' args)
            else Raised (Exn ValueError "unsupported format character")
        | EmptyString => Raised (Exn ValueError "incomplete format")
        end
      else outcome_map (String c) (percent_format rest args)
  end.

(** Line 24: [mod_name = 'pydevd_frame_evaluator_%s_%s%s_%s' %
    (sys.platform, sys.version_info[0], sys.version_info[1], plat)]. *)
Definition mod_name_of (platform : string) (major minor : Z) (plat : string)
  : outcome string :=
  percent_format "pydevd_frame_evaluator_%s_%s%s_%s"
    [ArgStr platform; ArgInt major; ArgInt minor; ArgStr plat].

(** Line 25: [check_name = '_pydevd_frame_eval.%s' % (mod_name,)]. *)
Definition check_name_of (mod_name : string) : outcome string :=
  percent_format "_pydevd_frame_eval.%s" [ArgStr mod_name].

(** Line 8: the comparison [sys.maxsize > 2**32] on an integer. *)
Definition is_64bits_of (maxsize : Z) : bool := 2 ^ 32 <? maxsize.

(** Lines 12 to 14: [plat = '32'], overwritten by ['64'] if [is_64bits];
    this is the value of [plat] when line 24 reads it. *)
Definition plat_of (is_64bits : bool) : string :=
  let plat := "32" in
  if is_64bits then "64" else plat.

(** ** The interpreter *)

(** What the shim asks of the interpreter that runs it.
    - [builtin_import name fromlist] is [__import__(name, globals(),
      locals(), fromlist, 0)], the call behind every import statement and
      the one made directly on line 26.  It returns the module the import
      machinery hands back, or raises.
    - [sys_platform] and [sys_version_info] are [sys.platform] and the first
      two components of [sys.version_info].
    - [sys_maxsize] is the evaluation of [sys.maxsize]: an integer, or the
      exception raised where the attribute does not exist. *)
Record runtime : Type := Runtime {
  builtin_import : string → list string → outcome value;
  sys_platform : string;
  sys_version_info : Z * Z;
  sys_maxsize : outcome Z
}.

(** ** The state and exception monad *)

(** The calls to the interpreter, in the order they are made. *)
Inductive event : Type :=
| EvImport (name : string) (fromlist : list string)
| EvMaxsize.

(** [ns] is the namespace of the shim module (its global names); [log]
    records the interpreter calls made so far. *)
Record state : Type := State {
  ns : gmap string value;
  log : list event
}.

Definition py (A : Type) : Type := state → outcome A * state.

#[global] Instance py_ret : MRet py := λ A a st, (Normal a, st).

#[global] Instance py_bind : MBind py := λ A B f m st,
  match m st with
  | (Normal a, st') => f a st'
  | (Raised e, st') => (Raised e, st')
  end.

(** [raise e]. *)
Definition raise {A} (e : exn) : py A := λ st, (Raised e, st).

(** An expression without effect on the state. *)
Definition lift {A} (o : outcome A) : py A := λ st, (o, st).

(** [name = v] at module level. *)
Definition store (name : string) (v : value) : py unit := λ st,
  (Normal tt, State (<[name := v]> (ns st)) (log st)).

Definition emit (ev : event) : py unit := λ st,
  (Normal tt, State (ns st) (log st ++ [ev])).

(** [try: body / except C: handler]: the handler runs, in the state the
    body left, on the exceptions that [catches] accepts; the others
    propagate.  A bare [raise] in the handler is [raise e]. *)
Definition try_except {A} (body : py A) (catches : exn → bool)
    (handler : exn → py A) : py A := λ st,
  match body st with
  | (Raised e, st') => if catches e then handler e st' else (Raised e, st')
  | r => r
  end.

(** A bare [except:] catches everything. *)
Definition any_exception (e : exn) : bool := true.

Section Shim.

Variable rt : runtime.

(** ** Import statements *)

(** [IMPORT_NAME]: the call to [__import__]. *)
Definition import_name (name : string) (fromlist : list string) : py value :=
  emit (EvImport name fromlist);; lift (builtin_import rt name fromlist).

(** [import name] for a top-level module. *)
Definition import_stmt (name : string) : py unit :=
  m ← import_name name []; store name m.

(** [IMPORT_FROM]: the attribute of the module, a missing attribute
    becoming an [ImportError] ("cannot import name"). *)
Definition import_from (m : value) (name : string) : py value :=
  match getattr m name with
  | Normal v => mret v
  | Raised _ => raise (Exn ImportError ("cannot import name " ++ name))
  end.

(** [from module import n1, n2, ...] compiles to [IMPORT_NAME module],
    then [IMPORT_FROM n; STORE_NAME n] for each name in turn: a name is
    bound before the next one is looked up. *)
Fixpoint import_from_all (m : value) (names : list string) : py unit :=
  match names with
  | [] => mret tt
  | n :: names' => v ← import_from m n; store n v;; import_from_all m names'
  end.

Definition from_import (name : string) (names : list string) : py unit :=
  m ← import_name name names; import_from_all m names.

(** ** The shim *)

Definition default_provider : string := "_pydevd_frame_eval.pydevd_frame_evaluator".

Definition capabilities : list string := ["frame_eval_func"; "stop_frame_eval"].

(** Line 2. *)
Definition primary : py unit := from_import default_provider capabilities.

(** Lines 7 to 11: the comparison [sys.maxsize > 2**32] under a bare
    [except:] that raises a fresh [ImportError]. *)
Definition bitness_query : py bool :=
  try_except
    (emit EvMaxsize;;
     maxsize ← lift (sys_maxsize rt);
     let is_64bits := is_64bits_of maxsize in
     store "is_64bits" (VBool is_64bits);; mret is_64bits)
    any_exception
    (λ _, raise (Exn ImportError "")).

(** [name = s] for a string, giving back the value bound. *)
Definition store_str (name : string) (s : string) : py string :=
  store name (VStr s);; mret s.

(** Lines 12 to 25: the pointer-width marker and the two names. *)
Definition compute_names (is_64bits : bool) : py (string * string) :=
  plat ← store_str "plat" "32";
  plat ← (if is_64bits then store_str "plat" "64" else mret plat);
  mod_name ← (s ← lift (mod_name_of (sys_platform rt) (sys_version_info rt).1
                                    (sys_version_info rt).2 plat);
              store_str "mod_name" s);
  check_name ← (s ← lift (check_name_of mod_name); store_str "check_name" s);
  mret (mod_name, check_name).

(** Lines 26 to 28: [mod = __import__(check_name)], [mod = getattr(mod,
    mod_name)], then the tuple assignment, whose right-hand side is
    evaluated in full before either name is bound. *)
Definition load_provider (mod_name check_name : string) : py unit :=
  pkg ← import_name check_name [];
  store "mod" pkg;;
  provider ← lift (getattr pkg mod_name);
  store "mod" provider;;
  f ← lift (getattr provider "frame_eval_func");
  s ← lift (getattr provider "stop_frame_eval");
  store "frame_eval_func" f;;
  store "stop_frame_eval" s.

(** Lines 5 to 28, the body of the inner [try]. *)
Definition fallback_body : py unit :=
  import_stmt "struct";;
  import_stmt "sys";;
  is_64bits ← bitness_query;
  names ← compute_names is_64bits;
  load_provider names.1 names.2.

(** Lines 4 to 30: the inner [try] with [except ImportError: raise]. *)
Definition fallback : py unit :=
  try_except fallback_body isinstance_ImportError (λ e, raise e).

(** The whole module: lines 1 to 30. *)
Definition resolve : py unit :=
  try_except primary isinstance_ImportError (λ _, fallback).

End Shim.

(** The module starts with no call made and none of its own names bound;
    the names the interpreter presets in a module ([__name__], [__file__],
    [__builtins__], ...), which the shim neither reads nor assigns, are
    left out. *)
Definition initial : state := State ∅ [].

(** Running the shim under an interpreter. *)
Definition run (rt : runtime) : outcome unit * state := resolve rt initial.

(** The binding of a name in the namespace of the shim. *)
Definition bound (st : state) (name : string) : option value := ns st !! name.

(** ** A flat installation, for concrete runs *)

(** [split_dot "pkg.sub"] is [Some ("pkg", "sub")], cut at the first dot. *)
Fixpoint split_dot (s : string) : option (string * string) :=
  match s with
  | EmptyString => None
  | String c rest =>
      if Ascii.eqb c "."%char then Some (EmptyString, rest)
      else match split_dot rest with
           | Some (pkg, sub) => Some (String c pkg, sub)
           | None => None
           end
  end.

(** The import machinery over a table of installed modules, keyed by their
    full name, for names with at most one dot.  A module that is not
    installed raises [ModuleNotFoundError].  As in CPython, an import of
    [pkg.sub] with an empty [fromlist] returns the package [pkg], which
    carries [sub] as an attribute; with a [fromlist] it returns [pkg.sub]
    itself. *)
Definition site_import (installed : list (string * value))
    (name : string) (fromlist : list string) : outcome value :=
  match dict_get installed name with
  | None => Raised (Exn ModuleNotFoundError name)
  | Some leaf =>
      match fromlist, split_dot name with
      | [], Some (pkg, sub) => Normal (VModule pkg [(sub, leaf)])
      | _, _ => Normal leaf
      end
  end.

(** A provider module that defines the given capabilities. *)
Definition provider_module (name : string) (defs : list string) : value :=
  VModule name (map (λ d, (d, VFunc (name ++ "." ++ d))) defs).

Definition stdlib_modules : list (string * value) :=
  [("struct", VModule "struct" []); ("sys", VModule "sys" [])].

(** CPython 3.9 on 64-bit Linux with the given modules installed next to
    the standard library. *)
Definition linux39 (extra : list (string * value)) : runtime :=
  {| builtin_import := site_import (stdlib_modules ++ extra);
     sys_platform := "linux";
     sys_version_info := (3, 9);
     sys_maxsize := Normal (2 ^ 63 - 1) |}.

(** Jython 2.5: [sys.maxsize] does not exist. *)
Definition jython25 (extra : list (string * value)) : runtime :=
  {| builtin_import := site_import (stdlib_modules ++ extra);
     sys_platform := "java1.6.0_45";
     sys_version_info := (2, 5);
     sys_maxsize := Raised (Exn AttributeError "maxsize") |}.

(** ** The naming convention *)

(** The documented convention for provider names, to be compared with what
    lines 24 and 25 compute:
    [<namespace>.<provider-prefix>_<platform>_<major><minor>_<width>]. *)
Definition provider_prefix : string := "pydevd_frame_evaluator".

Definition namespace_prefix : string := "_pydevd_frame_eval.".

Definition decimal (z : Z) : string := NilZero.string_of_int (Z.to_int z).

Definition qualified_name (platform : string) (major minor : Z) (width : string)
  : string :=
  provider_prefix ++ "_" ++ platform ++ "_" ++ decimal major ++ decimal minor
    ++ "_" ++ width.

Definition lookup_key (name : string) : string := namespace_prefix ++ name.

(** The provider name of an interpreter, for a given marker. *)
Definition provider_name (rt : runtime) (width : string) : string :=
  qualified_name (sys_platform rt) (sys_version_info rt).1
    (sys_version_info rt).2 width.

(** ** The vocabulary of the statements *)

(** The fallback path is entered from the state [st] in which line 2 raised
    an [ImportError]. *)
Definition enters_fallback (rt : runtime) (st : state) : Prop :=
  ∃ e, primary rt initial = (Raised e, st) ∧ isinstance_ImportError e = true.

(** The default provider is absent: its import raises an [ImportError]. *)
Definition default_absent (rt : runtime) : Prop :=
  ∃ e, builtin_import rt default_provider capabilities = Raised e
       ∧ isinstance_ImportError e = true.

(** The state after the failed import of an absent default provider. *)
Definition after_default_absent : state :=
  State ∅ [EvImport default_provider capabilities].

(** The state in which line 26 runs, when the fallback path reaches it. *)
Definition before_load (rt : runtime) (st : state) (ms msys : value) (m : Z)
  : state :=
  State (<["check_name" := VStr (lookup_key (provider_name rt (plat_of (is_64bits_of m))))]>
           (<["mod_name" := VStr (provider_name rt (plat_of (is_64bits_of m)))]>
              (<["plat" := VStr (plat_of (is_64bits_of m))]>
                 (<["is_64bits" := VBool (is_64bits_of m)]>
                    (<["sys" := msys]> (<["struct" := ms]> (ns st)))))))
        (log st ++ [EvImport "struct" []; EvImport "sys" []; EvMaxsize]).

(** The default provider, when its import succeeds, does not define
    [frame_eval_func] without [stop_frame_eval]. *)
Definition default_not_partial (rt : runtime) : Prop :=
  ∀ m f, builtin_import rt default_provider capabilities = Normal m →
         getattr m "frame_eval_func" = Normal f →
         ∃ s, getattr m "stop_frame_eval" = Normal s.

(** The interpreter's imports fail with import errors only. *)
Definition imports_raise_ImportError (rt : runtime) : Prop :=
  ∀ name fromlist e,
    builtin_import rt name fromlist = Raised e →
    isinstance_ImportError e = true.

(** ** Further vocabulary and interpreters *)

(** The names the shim assigns at module level. *)
Definition shim_names : list string :=
  ["frame_eval_func"; "stop_frame_eval"; "struct"; "sys"; "is_64bits";
   "plat"; "mod_name"; "check_name"; "mod"].

(** The calls of a run that goes all the way to line 26 under [key]. *)
Definition full_trace (key : string) : list event :=
  [EvImport default_provider capabilities;
   EvImport "struct" []; EvImport "sys" []; EvMaxsize; EvImport key []].

(** CPython 3.9 on 64-bit Linux over a given import function. *)
Definition linux39_with (import : string → list string → outcome value)
  : runtime :=
  {| builtin_import := import;
     sys_platform := "linux";
     sys_version_info := (3, 9);
     sys_maxsize := Normal (2 ^ 63 - 1) |}.

(** An installation whose default provider fails to initialise: its import
    raises an exception that is not an [ImportError]. *)
Definition broken_default_import (name : string) (fromlist : list string)
  : outcome value :=
  if String.eqb name default_provider
  then Raised (Exn ValueError "binary incompatibility")
  else site_import stdlib_modules name fromlist.

(** An import function that hands back the module named, not its
    top-level package. *)
Definition leaf_import (installed : list (string * value))
    (name : string) (fromlist : list string) : outcome value :=
  match dict_get installed name with
  | None => Raised (Exn ModuleNotFoundError name)
  | Some leaf => Normal leaf
  end.

(** The starting namespace leaves the builtins the shim uses
    ([ImportError], [__import__], [getattr]) to the interpreter: no
    module-level name shadows them. *)
Definition no_shadowing (st : state) : Prop :=
  bound st "ImportError" = None
  ∧ bound st "__import__" = None
  ∧ bound st "getattr" = None.

(** A namespace in which the interpreter has preset [__name__]. *)
Definition preset_namespace : state :=
  State (<["__name__" :=
             VStr "_pydevd_frame_eval.pydevd_frame_eval_cython_wrapper"]> ∅)
        [].

(** The longest sequence of calls a run can make: up to [sys.maxsize] where
    that raises, up to the import of line 26 where it evaluates. *)
Definition expected_trace (rt : runtime) : list event :=
  match sys_maxsize rt with
  | Normal m =>
      full_trace (lookup_key (provider_name rt (plat_of (is_64bits_of m))))
  | Raised _ =>
      [EvImport default_provider capabilities;
       EvImport "struct" []; EvImport "sys" []; EvMaxsize]
  end.

(** ** Tactics *)

(** One step of the monad: unfold the operations, keep the namespace
    updates as they are. *)
Ltac py_step :=
  cbv beta iota zeta delta
    [from_import import_from_all import_from import_stmt import_name
     bitness_query store_str store emit lift raise try_except any_exception
     mbind py_bind mret py_ret];
  cbn [ns log fst snd].

Ltac py_run H := rewrite H; py_step.

(** * Properties *)

(** ** Formatting *)

Lemma append_empty_r (s : string) : s ++ "" = s.
Proof.
  induction s as [|c s IH]; [reflexivity|].
  change (String c (s ++ "") = String c s). now rewrite IH.
Qed.

Lemma mod_name_of_normal platform major minor plat :
  mod_name_of platform major minor plat
  = Normal (qualified_name platform major minor plat).
Proof.
  unfold mod_name_of, qualified_name, provider_prefix, decimal. simpl.
  now rewrite append_empty_r.
Qed.

Lemma check_name_of_normal name :
  check_name_of name = Normal (lookup_key name).
Proof.
  unfold check_name_of, lookup_key, namespace_prefix. simpl.
  now rewrite append_empty_r.
Qed.

(** The platforms, versions and widths of the binaries named in the
    comment of lines 16 to 22, and a two-digit minor version. *)
Example mod_name_win32_27_32 :
  mod_name_of "win32" 2 7 "32" = Normal "pydevd_frame_evaluator_win32_27_32".
Proof. reflexivity. Qed.

Example mod_name_win32_34_64 :
  mod_name_of "win32" 3 4 "64" = Normal "pydevd_frame_evaluator_win32_34_64".
Proof. reflexivity. Qed.

Example mod_name_linux_310_64 :
  mod_name_of "linux" 3 10 "64" = Normal "pydevd_frame_evaluator_linux_310_64".
Proof. reflexivity. Qed.

Example percent_format_too_few_arguments :
  percent_format "%s_%s" [ArgStr "a"]
  = Raised (Exn TypeError "not enough arguments for format string").
Proof. reflexivity. Qed.

Example is_64bits_of_maxsize_32 : is_64bits_of (2 ^ 31 - 1) = false.
Proof. reflexivity. Qed.

Example is_64bits_of_maxsize_64 : is_64bits_of (2 ^ 63 - 1) = true.
Proof. reflexivity. Qed.

Lemma plat_of_cases b : plat_of b = "64" ∨ plat_of b = "32".
Proof. destruct b; [left | right]; reflexivity. Qed.

(** ** Running the monad *)

(** [except ImportError: raise] lets the body's result through. *)
Lemma try_reraise {A} (body : py A) (catches : exn → bool) (st : state) :
  try_except body catches (λ e, raise e) st = body st.
Proof.
  unfold try_except, raise.
  destruct (body st) as [[a|e] st']; [reflexivity | now destruct (catches e)].
Qed.

Lemma fallback_is_body rt st : fallback rt st = fallback_body rt st.
Proof. apply try_reraise. Qed.

Section Steps.

Variable rt : runtime.

(** The three ways out of the outer [try]. *)
Lemma resolve_primary_normal st st1 :
  primary rt st = (Normal tt, st1) → resolve rt st = (Normal tt, st1).
Proof. intros H. unfold resolve, try_except. now rewrite H. Qed.

Lemma resolve_enters_fallback st e st1 :
  primary rt st = (Raised e, st1) → isinstance_ImportError e = true →
  resolve rt st = fallback_body rt st1.
Proof.
  intros H He. unfold resolve, try_except. rewrite H, He.
  apply fallback_is_body.
Qed.

Lemma resolve_primary_other st e st1 :
  primary rt st = (Raised e, st1) → isinstance_ImportError e = false →
  resolve rt st = (Raised e, st1).
Proof. intros H He. unfold resolve, try_except. now rewrite H, He. Qed.

(** Lines 12 to 25 always succeed, and bind [plat], [mod_name] and
    [check_name]. *)
Lemma compute_names_run (b : bool) st :
  compute_names rt b st
  = (Normal (provider_name rt (plat_of b), lookup_key (provider_name rt (plat_of b))),
     State (<["check_name" := VStr (lookup_key (provider_name rt (plat_of b)))]>
              (<["mod_name" := VStr (provider_name rt (plat_of b))]>
                 (<["plat" := VStr (plat_of b)]> (ns st))))
           (log st)).
Proof.
  unfold provider_name, compute_names.
  destruct b; py_step; rewrite mod_name_of_normal; py_step;
    rewrite check_name_of_normal; py_step; [|reflexivity].
  now rewrite insert_insert_eq.
Qed.

Lemma fallback_body_reaches_load st ms msys m :
  builtin_import rt "struct" [] = Normal ms →
  builtin_import rt "sys" [] = Normal msys →
  sys_maxsize rt = Normal m →
  fallback_body rt st
  = load_provider rt (provider_name rt (plat_of (is_64bits_of m)))
      (lookup_key (provider_name rt (plat_of (is_64bits_of m))))
      (before_load rt st ms msys m).
Proof.
  intros Hs Hy Hm. unfold fallback_body, before_load. py_step.
  py_run Hs. py_run Hy. py_run Hm.
  rewrite compute_names_run. cbn [fst snd ns log].
  now rewrite <- !app_assoc.
Qed.

(** The fallback path when the bitness query raises. *)
Lemma fallback_body_query_raises st ms msys e :
  builtin_import rt "struct" [] = Normal ms →
  builtin_import rt "sys" [] = Normal msys →
  sys_maxsize rt = Raised e →
  fallback_body rt st
  = (Raised (Exn ImportError ""),
     State (<["sys" := msys]> (<["struct" := ms]> (ns st)))
           (log st ++ [EvImport "struct" []; EvImport "sys" []; EvMaxsize])).
Proof.
  intros Hs Hy Hm. unfold fallback_body. py_step.
  py_run Hs. py_run Hy. py_run Hm.
  now rewrite <- !app_assoc.
Qed.

(** Line 2, by cases on what the interpreter answers. *)
Lemma primary_run st :
  primary rt st
  = let l := (log st ++ [EvImport default_provider capabilities])%list in
    match builtin_import rt default_provider capabilities with
    | Raised e => (Raised e, State (ns st) l)
    | Normal m =>
        match getattr m "frame_eval_func" with
        | Raised _ =>
            (Raised (Exn ImportError "cannot import name frame_eval_func"),
             State (ns st) l)
        | Normal f =>
            match getattr m "stop_frame_eval" with
            | Raised _ =>
                (Raised (Exn ImportError "cannot import name stop_frame_eval"),
                 State (<["frame_eval_func" := f]> (ns st)) l)
            | Normal s =>
                (Normal tt,
                 State (<["stop_frame_eval" := s]>
                          (<["frame_eval_func" := f]> (ns st))) l)
            end
        end
    end.
Proof.
  unfold primary, capabilities. py_step.
  destruct (builtin_import rt _ _) as [m|e]; [|reflexivity]. py_step.
  destruct (getattr m "frame_eval_func") as [f|ef]; [|reflexivity]. py_step.
  destruct (getattr m "stop_frame_eval") as [s|es]; reflexivity.
Qed.

(** Lines 26 to 28, by cases on what the interpreter answers. *)
Lemma load_provider_run mod_name check_name st :
  load_provider rt mod_name check_name st
  = let l := (log st ++ [EvImport check_name []])%list in
    match builtin_import rt check_name [] with
    | Raised e => (Raised e, State (ns st) l)
    | Normal pkg =>
        match getattr pkg mod_name with
        | Raised e => (Raised e, State (<["mod" := pkg]> (ns st)) l)
        | Normal provider =>
            let bound_mod := <["mod" := provider]> (<["mod" := pkg]> (ns st)) in
            match getattr provider "frame_eval_func" with
            | Raised e => (Raised e, State bound_mod l)
            | Normal f =>
                match getattr provider "stop_frame_eval" with
                | Raised e => (Raised e, State bound_mod l)
                | Normal s =>
                    (Normal tt,
                     State (<["stop_frame_eval" := s]>
                              (<["frame_eval_func" := f]> bound_mod)) l)
                end
            end
        end
    end.
Proof.
  unfold load_provider. py_step.
  destruct (builtin_import rt _ _) as [pkg|e]; [|reflexivity]. py_step.
  destruct (getattr pkg mod_name) as [provider|e]; [|reflexivity]. py_step.
  destruct (getattr provider "frame_eval_func") as [f|e]; [|reflexivity].
  py_step.
  destruct (getattr provider "stop_frame_eval") as [s|e]; reflexivity.
Qed.

(** Line 2 binds nothing but the two capabilities. *)
Lemma primary_binds_only_capabilities st name :
  name ≠ "frame_eval_func" → name ≠ "stop_frame_eval" →
  bound (primary rt st).2 name = bound st name.
Proof.
  intros Hf Hs. rewrite primary_run. unfold bound. cbv zeta.
  destruct (builtin_import rt _ _) as [m|e]; [|reflexivity].
  destruct (getattr m "frame_eval_func") as [f|ef]; [|reflexivity].
  destruct (getattr m "stop_frame_eval") as [s|es]; cbn [snd ns];
    by rewrite ?lookup_insert_ne.
Qed.

(** Line 26 is the one interpreter call of lines 26 to 28. *)
Lemma load_provider_log mod_name check_name st :
  log (load_provider rt mod_name check_name st).2
  = (log st ++ [EvImport check_name []])%list.
Proof.
  rewrite load_provider_run. cbv zeta.
  destruct (builtin_import rt _ _) as [pkg|e]; [|reflexivity].
  destruct (getattr pkg mod_name) as [provider|e]; [|reflexivity].
  destruct (getattr provider "frame_eval_func") as [f|e]; [|reflexivity].
  destruct (getattr provider "stop_frame_eval") as [s|e]; reflexivity.
Qed.

(** Lines 26 to 28 bind [mod] and the two capabilities, nothing else. *)
Lemma load_provider_binds_only mod_name check_name st name :
  name ≠ "mod" → name ≠ "frame_eval_func" → name ≠ "stop_frame_eval" →
  bound (load_provider rt mod_name check_name st).2 name = bound st name.
Proof.
  intros Hm Hf Hs. rewrite load_provider_run. unfold bound. cbv zeta.
  destruct (builtin_import rt _ _) as [pkg|e]; [|reflexivity].
  destruct (getattr pkg mod_name) as [provider|e]; cbn [snd ns];
    [|by rewrite ?lookup_insert_ne].
  destruct (getattr provider "frame_eval_func") as [f|e]; cbn [snd ns];
    [|by rewrite ?lookup_insert_ne].
  destruct (getattr provider "stop_frame_eval") as [s|e]; cbn [snd ns];
    by rewrite ?lookup_insert_ne.
Qed.

(** Lines 26 to 28 either end normally with both capabilities bound, or
    raise and leave both as they were. *)
Lemma load_provider_outcome mod_name check_name st :
  let r := load_provider rt mod_name check_name st in
  (r.1 = Normal tt ∧ is_Some (bound r.2 "frame_eval_func")
     ∧ is_Some (bound r.2 "stop_frame_eval"))
  ∨ ((∃ e, r.1 = Raised e)
     ∧ bound r.2 "frame_eval_func" = bound st "frame_eval_func"
     ∧ bound r.2 "stop_frame_eval" = bound st "stop_frame_eval").
Proof.
  cbv zeta. rewrite load_provider_run. unfold bound. cbv zeta.
  destruct (builtin_import rt _ _) as [pkg|e]; [|right; eauto].
  destruct (getattr pkg mod_name) as [provider|e]; cbn [fst snd ns];
    [|right; rewrite !lookup_insert_ne by done; eauto].
  destruct (getattr provider "frame_eval_func") as [f|e]; cbn [fst snd ns];
    [|right; rewrite !lookup_insert_ne by done; eauto].
  destruct (getattr provider "stop_frame_eval") as [s|e]; cbn [fst snd ns];
    [|right; rewrite !lookup_insert_ne by done; eauto].
  left. split; [reflexivity|].
  rewrite lookup_insert_ne by done. rewrite !lookup_insert_eq. eauto.
Qed.

(** The same for the whole body of the inner [try]. *)
Lemma fallback_body_outcome st :
  let r := fallback_body rt st in
  (r.1 = Normal tt ∧ is_Some (bound r.2 "frame_eval_func")
     ∧ is_Some (bound r.2 "stop_frame_eval"))
  ∨ ((∃ e, r.1 = Raised e)
     ∧ bound r.2 "frame_eval_func" = bound st "frame_eval_func"
     ∧ bound r.2 "stop_frame_eval" = bound st "stop_frame_eval").
Proof.
  cbv zeta.
  destruct (builtin_import rt "struct" []) as [ms|e] eqn:Hs.
  2:{ right. unfold fallback_body. py_step. py_run Hs. eauto. }
  destruct (builtin_import rt "sys" []) as [msys|e] eqn:Hy.
  2:{ right. unfold fallback_body. py_step. py_run Hs. py_run Hy.
      unfold bound. cbn [ns]. rewrite !lookup_insert_ne by done. eauto. }
  destruct (sys_maxsize rt) as [m|e] eqn:Hm.
  2:{ right. rewrite (fallback_body_query_raises st ms msys e Hs Hy Hm).
      unfold bound. cbn [fst snd ns]. rewrite !lookup_insert_ne by done. eauto. }
  rewrite (fallback_body_reaches_load st ms msys m Hs Hy Hm).
  destruct (load_provider_outcome
              (provider_name rt (plat_of (is_64bits_of m)))
              (lookup_key (provider_name rt (plat_of (is_64bits_of m))))
              (before_load rt st ms msys m)) as [H|(He & Hf & Hg)];
    [left; exact H|right].
  split; [exact He|]. rewrite Hf, Hg. unfold bound, before_load. cbn [ns].
  by rewrite !lookup_insert_ne.
Qed.

End Steps.

(** ** Entering the fallback path *)

Lemma run_enters_fallback rt st :
  enters_fallback rt st → run rt = fallback_body rt st.
Proof.
  intros (e & Hp & He). unfold run. eapply resolve_enters_fallback; eauto.
Qed.

Lemma default_absent_enters_fallback rt :
  default_absent rt → enters_fallback rt after_default_absent.
Proof.
  intros (e & Hi & He). exists e. split; [|exact He].
  rewrite primary_run, Hi. reflexivity.
Qed.

Lemma enters_fallback_unbound rt st name :
  enters_fallback rt st →
  name ≠ "frame_eval_func" → name ≠ "stop_frame_eval" →
  bound st name = None.
Proof.
  intros (e & Hp & _) Hf Hs.
  pose proof (primary_binds_only_capabilities rt initial name Hf Hs) as H.
  rewrite Hp in H. exact H.
Qed.

(** ** The provider name (C1, C2) *)

(** C1. For every platform string, major and minor version and
    pointer-width marker, the provider name computed on line 24 is the
    fixed prefix [pydevd_frame_evaluator] followed by [_], the platform,
    [_], the major and the minor version in decimal, [_] and the marker;
    the lookup key computed on line 25 is that name after the fixed
    namespace [_pydevd_frame_eval.].  These are the names the fallback path
    binds and returns, whatever the state it runs in. *)
Theorem qualified_name_format :
  (∀ (platform : string) (major minor : Z) (width : string),
     let name := "pydevd_frame_evaluator" ++ "_" ++ platform ++ "_"
                   ++ decimal major ++ decimal minor ++ "_" ++ width in
     mod_name_of platform major minor width = Normal name
     ∧ check_name_of name = Normal ("_pydevd_frame_eval." ++ name))
  ∧ (∀ (rt : runtime) (is_64bits : bool) (st : state),
       let name := "pydevd_frame_evaluator" ++ "_" ++ sys_platform rt ++ "_"
                     ++ decimal (sys_version_info rt).1
                     ++ decimal (sys_version_info rt).2
                     ++ "_" ++ plat_of is_64bits in
       (compute_names rt is_64bits st).1
       = Normal (name, "_pydevd_frame_eval." ++ name)).
Proof.
  split.
  - intros platform major minor width name. split.
    + apply mod_name_of_normal.
    + apply check_name_of_normal.
  - intros rt b st name. now rewrite compute_names_run.
Qed.

(** C2, as the code has it.  On Linux, under Python 3.9 with
    [sys.maxsize] above [2**32], when the import of the default provider
    fails, the lookup key bound to [check_name] and passed to [__import__]
    is ["_pydevd_frame_eval.pydevd_frame_evaluator_linux_39_64"]: the
    marker is set off from the version by an underscore. *)
Theorem linux39_lookup_key (rt : runtime) (ms msys : value) (m : Z) :
  sys_platform rt = "linux" →
  sys_version_info rt = (3, 9) →
  sys_maxsize rt = Normal m →
  2 ^ 32 < m →
  default_absent rt →
  builtin_import rt "struct" [] = Normal ms →
  builtin_import rt "sys" [] = Normal msys →
  bound (run rt).2 "check_name"
  = Some (VStr "_pydevd_frame_eval.pydevd_frame_evaluator_linux_39_64")
  ∧ log (run rt).2
    = [EvImport default_provider capabilities;
       EvImport "struct" []; EvImport "sys" []; EvMaxsize;
       EvImport "_pydevd_frame_eval.pydevd_frame_evaluator_linux_39_64" []].
Proof.
  intros Hp Hv Hm Hlt Hd Hs Hy.
  rewrite (run_enters_fallback rt _ (default_absent_enters_fallback rt Hd)).
  rewrite (fallback_body_reaches_load rt _ ms msys m Hs Hy Hm).
  assert (Hb : is_64bits_of m = true) by (apply Z.ltb_lt; exact Hlt).
  assert (Hn : provider_name rt (plat_of (is_64bits_of m))
               = "pydevd_frame_evaluator_linux_39_64").
  { unfold provider_name. rewrite Hp, Hv, Hb. reflexivity. }
  rewrite Hn. split.
  - rewrite load_provider_binds_only by done.
    unfold bound, before_load. cbn [ns]. rewrite Hn.
    by rewrite lookup_insert_eq.
  - rewrite load_provider_log. reflexivity.
Qed.

Lemma linux39_lookup_key_witness :
  bound (run (linux39 [])).2 "check_name"
  = Some (VStr "_pydevd_frame_eval.pydevd_frame_evaluator_linux_39_64")
  ∧ log (run (linux39 [])).2
    = [EvImport default_provider capabilities;
       EvImport "struct" []; EvImport "sys" []; EvMaxsize;
       EvImport "_pydevd_frame_eval.pydevd_frame_evaluator_linux_39_64" []].
Proof.
  apply (linux39_lookup_key (linux39 []) (VModule "struct" [])
           (VModule "sys" []) (2 ^ 63 - 1)); try reflexivity.
  eexists. split; reflexivity.
Defined.

(** C2, as the specification words it, fails: on 64-bit Linux under
    Python 3.9 without the default provider the key is not
    ["_pydevd_frame_eval.pydevd_frame_evaluator_linux_3964"], and no import
    under that key is attempted. *)
Lemma linux39_key_is_not_3964 :
  sys_platform (linux39 []) = "linux"
  ∧ sys_version_info (linux39 []) = (3, 9)
  ∧ sys_maxsize (linux39 []) = Normal (2 ^ 63 - 1)
  ∧ default_absent (linux39 [])
  ∧ bound (run (linux39 [])).2 "check_name"
    ≠ Some (VStr "_pydevd_frame_eval.pydevd_frame_evaluator_linux_3964")
  ∧ (EvImport "_pydevd_frame_eval.pydevd_frame_evaluator_linux_3964" []
     ∉ log (run (linux39 [])).2).
Proof.
  repeat split.
  - eexists. split; reflexivity.
  - vm_compute. discriminate.
  - intros H. apply list_elem_of_In in H. vm_compute in H.
    repeat (destruct H as [H|H]; [discriminate H|]). exact H.
Qed.

(** ** The primary path (C3) *)

(** C3. If the import of the default provider succeeds and the module has
    both symbols, the shim ends normally with both names bound to the
    default provider's objects and nothing else bound; the import of the
    default provider is the only call made to the interpreter, so
    [sys.maxsize] is not queried and neither [mod_name] nor [check_name]
    is computed. *)
Theorem default_provider_only (rt : runtime) (m f s : value) :
  builtin_import rt default_provider capabilities = Normal m →
  getattr m "frame_eval_func" = Normal f →
  getattr m "stop_frame_eval" = Normal s →
  run rt
  = (Normal tt,
     State (<["stop_frame_eval" := s]> (<["frame_eval_func" := f]> ∅))
           [EvImport default_provider capabilities])
  ∧ (EvMaxsize ∉ log (run rt).2)
  ∧ bound (run rt).2 "mod_name" = None
  ∧ bound (run rt).2 "check_name" = None
  ∧ bound (run rt).2 "frame_eval_func" = Some f
  ∧ bound (run rt).2 "stop_frame_eval" = Some s.
Proof.
  intros Hi Hf Hs.
  assert (Hr : run rt
               = (Normal tt,
                  State (<["stop_frame_eval" := s]>
                           (<["frame_eval_func" := f]> ∅))
                        [EvImport default_provider capabilities])).
  { unfold run. apply resolve_primary_normal.
    rewrite primary_run, Hi, Hf, Hs. reflexivity. }
  rewrite Hr. unfold bound. cbn [snd ns log].
  split; [reflexivity|]. split.
  - intros H. apply list_elem_of_singleton in H. discriminate H.
  - repeat split; by simplify_map_eq.
Qed.

Lemma default_provider_only_witness :
  let rt := linux39 [(default_provider,
                      provider_module default_provider capabilities)] in
  run rt
  = (Normal tt,
     State (<["stop_frame_eval" :=
                VFunc "_pydevd_frame_eval.pydevd_frame_evaluator.stop_frame_eval"]>
              (<["frame_eval_func" :=
                   VFunc "_pydevd_frame_eval.pydevd_frame_evaluator.frame_eval_func"]>
                 ∅))
           [EvImport default_provider capabilities])
  ∧ (EvMaxsize ∉ log (run rt).2)
  ∧ bound (run rt).2 "mod_name" = None
  ∧ bound (run rt).2 "check_name" = None
  ∧ bound (run rt).2 "frame_eval_func"
    = Some (VFunc "_pydevd_frame_eval.pydevd_frame_evaluator.frame_eval_func")
  ∧ bound (run rt).2 "stop_frame_eval"
    = Some (VFunc "_pydevd_frame_eval.pydevd_frame_evaluator.stop_frame_eval").
Proof.
  apply (default_provider_only
           (linux39 [(default_provider,
                      provider_module default_provider capabilities)])
           (provider_module default_provider capabilities));
    reflexivity.
Defined.

(** ** The bitness query (C4, C5, C10) *)

(** C4. On the fallback path, if evaluating [sys.maxsize] raises, whatever
    the exception, the shim raises an [ImportError] at once: the query is
    the last call made to the interpreter, so no further import is
    attempted, and neither [mod_name] nor [check_name] is computed. *)
Theorem bitness_query_failure_aborts (rt : runtime) (st1 : state)
    (ms msys : value) (e : exn) :
  enters_fallback rt st1 →
  builtin_import rt "struct" [] = Normal ms →
  builtin_import rt "sys" [] = Normal msys →
  sys_maxsize rt = Raised e →
  (run rt).1 = Raised (Exn ImportError "")
  ∧ isinstance_ImportError (Exn ImportError "") = true
  ∧ log (run rt).2
    = (log st1 ++ [EvImport "struct" []; EvImport "sys" []; EvMaxsize])%list
  ∧ bound (run rt).2 "plat" = None
  ∧ bound (run rt).2 "mod_name" = None
  ∧ bound (run rt).2 "check_name" = None
  ∧ bound (run rt).2 "mod" = None.
Proof.
  intros Hp Hs Hy Hm.
  rewrite (run_enters_fallback rt st1 Hp).
  rewrite (fallback_body_query_raises rt st1 ms msys e Hs Hy Hm).
  unfold bound. cbn [fst snd ns log].
  rewrite !lookup_insert_ne by done.
  repeat split; by apply (enters_fallback_unbound rt st1).
Qed.

Lemma bitness_query_failure_aborts_witness :
  (run (jython25 [])).1 = Raised (Exn ImportError "")
  ∧ isinstance_ImportError (Exn ImportError "") = true
  ∧ log (run (jython25 [])).2
    = (log after_default_absent
         ++ [EvImport "struct" []; EvImport "sys" []; EvMaxsize])%list
  ∧ bound (run (jython25 [])).2 "plat" = None
  ∧ bound (run (jython25 [])).2 "mod_name" = None
  ∧ bound (run (jython25 [])).2 "check_name" = None
  ∧ bound (run (jython25 [])).2 "mod" = None.
Proof.
  apply (bitness_query_failure_aborts (jython25 []) after_default_absent
           (VModule "struct" []) (VModule "sys" [])
           (Exn AttributeError "maxsize")); try reflexivity.
  eexists. split; reflexivity.
Defined.

(** C5. On the fallback path, when [sys.maxsize] evaluates to [m], the
    marker bound to [plat] and used in the provider name is ["64"] exactly
    when [m] is strictly greater than [2**32] and ["32"] exactly when it is
    not; it has no other value. *)
Theorem pointer_width_marker (rt : runtime) (st1 : state)
    (ms msys : value) (m : Z) :
  enters_fallback rt st1 →
  builtin_import rt "struct" [] = Normal ms →
  builtin_import rt "sys" [] = Normal msys →
  sys_maxsize rt = Normal m →
  ∃ w : string,
    bound (run rt).2 "plat" = Some (VStr w)
    ∧ bound (run rt).2 "mod_name" = Some (VStr (provider_name rt w))
    ∧ (w = "64" ↔ 2 ^ 32 < m)
    ∧ (w = "32" ↔ m ≤ 2 ^ 32)
    ∧ (w = "64" ∨ w = "32").
Proof.
  intros Hp Hs Hy Hm.
  rewrite (run_enters_fallback rt st1 Hp).
  rewrite (fallback_body_reaches_load rt st1 ms msys m Hs Hy Hm).
  exists (plat_of (is_64bits_of m)).
  rewrite !load_provider_binds_only by done.
  unfold bound, before_load. cbn [ns].
  split; [by rewrite !lookup_insert_ne, lookup_insert_eq by done|].
  split; [by rewrite !lookup_insert_ne, lookup_insert_eq by done|].
  unfold is_64bits_of.
  destruct (Z.ltb_spec (2 ^ 32) m) as [Hlt|Hge]; cbn [plat_of].
  - repeat split; try (intros; assumption); try (left; reflexivity).
    + intros H; discriminate H.
    + lia.
  - repeat split; try (intros; assumption); try (right; reflexivity).
    + intros H; discriminate H.
    + lia.
Qed.

Lemma pointer_width_marker_witness :
  ∃ w : string,
    bound (run (linux39 [])).2 "plat" = Some (VStr w)
    ∧ bound (run (linux39 [])).2 "mod_name"
      = Some (VStr (provider_name (linux39 []) w))
    ∧ (w = "64" ↔ 2 ^ 32 < 2 ^ 63 - 1)
    ∧ (w = "32" ↔ 2 ^ 63 - 1 ≤ 2 ^ 32)
    ∧ (w = "64" ∨ w = "32").
Proof.
  apply (pointer_width_marker (linux39 []) after_default_absent
           (VModule "struct" []) (VModule "sys" []) (2 ^ 63 - 1));
    try reflexivity.
  eexists. split; reflexivity.
Defined.




(** ** The qualified provider (C7, C9) *)

(** C7. When the default provider is absent and the import under the
    computed key raises, that same exception is what the shim raises.  The
    failed import is the last call made to the interpreter, and neither
    capability name is bound: nothing stands in for the provider. *)
Theorem fallback_import_failure_propagates (rt : runtime)
    (ms msys : value) (m : Z) (e : exn) :
  default_absent rt →
  builtin_import rt "struct" [] = Normal ms →
  builtin_import rt "sys" [] = Normal msys →
  sys_maxsize rt = Normal m →
  builtin_import rt
    (lookup_key (provider_name rt (plat_of (is_64bits_of m)))) []
  = Raised e →
  (run rt).1 = Raised e
  ∧ log (run rt).2
    = [EvImport default_provider capabilities;
       EvImport "struct" []; EvImport "sys" []; EvMaxsize;
       EvImport (lookup_key (provider_name rt (plat_of (is_64bits_of m)))) []]
  ∧ bound (run rt).2 "frame_eval_func" = None
  ∧ bound (run rt).2 "stop_frame_eval" = None
  ∧ bound (run rt).2 "mod" = None.
Proof.
  intros Hd Hs Hy Hm Hi.
  rewrite (run_enters_fallback rt _ (default_absent_enters_fallback rt Hd)).
  rewrite (fallback_body_reaches_load rt _ ms msys m Hs Hy Hm).
  rewrite load_provider_run, Hi. unfold bound, before_load.
  cbn [fst snd ns log after_default_absent].
  repeat split; by simplify_map_eq.
Qed.

Lemma fallback_import_failure_propagates_witness :
  let key := "_pydevd_frame_eval.pydevd_frame_evaluator_linux_39_64" in
  (run (linux39 [])).1 = Raised (Exn ModuleNotFoundError key)
  ∧ log (run (linux39 [])).2
    = [EvImport default_provider capabilities;
       EvImport "struct" []; EvImport "sys" []; EvMaxsize;
       EvImport key []]
  ∧ bound (run (linux39 [])).2 "frame_eval_func" = None
  ∧ bound (run (linux39 [])).2 "stop_frame_eval" = None
  ∧ bound (run (linux39 [])).2 "mod" = None.
Proof.
  apply (fallback_import_failure_propagates (linux39 [])
           (VModule "struct" []) (VModule "sys" []) (2 ^ 63 - 1)
           (Exn ModuleNotFoundError
              "_pydevd_frame_eval.pydevd_frame_evaluator_linux_39_64"));
    try reflexivity.
  eexists. split; reflexivity.
Defined.

(** C9. When the default provider is absent and the import under the
    computed key returns an object whose attribute named by the provider
    name is a module with both symbols, the shim ends normally: [mod] is
    that attribute, not the object the import returned, and the two
    capability names are bound to its two symbols. *)
Theorem qualified_provider_resolves (rt : runtime)
    (ms msys : value) (m : Z) (pkg provider f s : value) :
  default_absent rt →
  builtin_import rt "struct" [] = Normal ms →
  builtin_import rt "sys" [] = Normal msys →
  sys_maxsize rt = Normal m →
  builtin_import rt
    (lookup_key (provider_name rt (plat_of (is_64bits_of m)))) []
  = Normal pkg →
  getattr pkg (provider_name rt (plat_of (is_64bits_of m))) = Normal provider →
  getattr provider "frame_eval_func" = Normal f →
  getattr provider "stop_frame_eval" = Normal s →
  (run rt).1 = Normal tt
  ∧ bound (run rt).2 "mod" = Some provider
  ∧ bound (run rt).2 "frame_eval_func" = Some f
  ∧ bound (run rt).2 "stop_frame_eval" = Some s.
Proof.
  intros Hd Hs Hy Hm Hi Hp Hf Hg.
  rewrite (run_enters_fallback rt _ (default_absent_enters_fallback rt Hd)).
  rewrite (fallback_body_reaches_load rt _ ms msys m Hs Hy Hm).
  rewrite load_provider_run, Hi. cbv zeta. rewrite Hp, Hf, Hg.
  unfold bound. cbn [fst snd ns].
  repeat split; by simplify_map_eq.
Qed.

Lemma qualified_provider_resolves_witness :
  let q := "_pydevd_frame_eval.pydevd_frame_evaluator_linux_39_64" in
  let rt := linux39 [(q, provider_module q capabilities)] in
  (run rt).1 = Normal tt
  ∧ bound (run rt).2 "mod" = Some (provider_module q capabilities)
  ∧ bound (run rt).2 "frame_eval_func" = Some (VFunc (q ++ ".frame_eval_func"))
  ∧ bound (run rt).2 "stop_frame_eval" = Some (VFunc (q ++ ".stop_frame_eval")).
Proof.
  cbv zeta.
  apply (qualified_provider_resolves
           (linux39 [("_pydevd_frame_eval.pydevd_frame_evaluator_linux_39_64",
                      provider_module
                        "_pydevd_frame_eval.pydevd_frame_evaluator_linux_39_64"
                        capabilities)])
           (VModule "struct" []) (VModule "sys" []) (2 ^ 63 - 1)
           (VModule "_pydevd_frame_eval"
              [("pydevd_frame_evaluator_linux_39_64",
                provider_module
                  "_pydevd_frame_eval.pydevd_frame_evaluator_linux_39_64"
                  capabilities)])
           (provider_module
              "_pydevd_frame_eval.pydevd_frame_evaluator_linux_39_64"
              capabilities));
    try reflexivity.
  eexists. split; reflexivity.
Defined.

(** ** Binding of the two names (C6) *)

(** C6, as the specification words it, fails.  A default provider that
    defines [frame_eval_func] but not [stop_frame_eval] gets the first name
    bound by line 2 before the second lookup raises; with no qualified
    provider installed the shim then raises, and leaves one name set and
    the other missing. *)
Lemma partial_default_provider_binds_one_name :
  let rt := linux39 [(default_provider,
                      provider_module default_provider ["frame_eval_func"])] in
  (run rt).1
  = Raised (Exn ModuleNotFoundError
              "_pydevd_frame_eval.pydevd_frame_evaluator_linux_39_64")
  ∧ bound (run rt).2 "frame_eval_func"
    = Some (VFunc "_pydevd_frame_eval.pydevd_frame_evaluator.frame_eval_func")
  ∧ bound (run rt).2 "stop_frame_eval" = None.
Proof. cbv zeta. repeat split; vm_compute; reflexivity. Qed.

(** The outcomes of the shim with respect to the two names: it ends
    normally with both bound, or raises with neither bound, or raises after
    line 2 found [frame_eval_func] but not [stop_frame_eval] in the default
    provider. *)
Lemma run_binding_cases (rt : runtime) :
  ((run rt).1 = Normal tt
   ∧ is_Some (bound (run rt).2 "frame_eval_func")
   ∧ is_Some (bound (run rt).2 "stop_frame_eval"))
  ∨ ((∃ e, (run rt).1 = Raised e)
     ∧ bound (run rt).2 "frame_eval_func" = None
     ∧ bound (run rt).2 "stop_frame_eval" = None)
  ∨ ((∃ e, (run rt).1 = Raised e)
     ∧ ∃ m f e',
         builtin_import rt default_provider capabilities = Normal m
         ∧ getattr m "frame_eval_func" = Normal f
         ∧ getattr m "stop_frame_eval" = Raised e').
Proof.
  assert (Hfb : ∀ st,
            enters_fallback rt st →
            ((run rt).1 = Normal tt
             ∧ is_Some (bound (run rt).2 "frame_eval_func")
             ∧ is_Some (bound (run rt).2 "stop_frame_eval"))
            ∨ ((∃ e, (run rt).1 = Raised e)
               ∧ bound (run rt).2 "frame_eval_func" = bound st "frame_eval_func"
               ∧ bound (run rt).2 "stop_frame_eval" = bound st "stop_frame_eval")).
  { intros st Hst. rewrite (run_enters_fallback rt st Hst).
    exact (fallback_body_outcome rt st). }
  pose proof (primary_run rt initial) as Hp. cbv zeta in Hp.
  destruct (builtin_import rt default_provider capabilities) as [m|e] eqn:Hi.
  - destruct (getattr m "frame_eval_func") as [f|ef] eqn:Hf.
    + destruct (getattr m "stop_frame_eval") as [s|es] eqn:Hs.
      * left. unfold run. rewrite (resolve_primary_normal rt _ _ Hp).
        unfold bound. cbn [fst snd ns].
        split; [reflexivity|]. split; simplify_map_eq; eauto.
      * destruct (Hfb _ (ex_intro _ _ (conj Hp eq_refl)))
          as [Hn|(He & _ & _)]; [left; exact Hn|].
        right. right. split; [exact He|]. exists m, f, es. auto.
    + destruct (Hfb _ (ex_intro _ _ (conj Hp eq_refl)))
        as [Hn|(He & Hbf & Hbs)]; [left; exact Hn|].
      right. left. split; [exact He|]. rewrite Hbf, Hbs. split; reflexivity.
  - destruct (isinstance_ImportError e) eqn:He.
    + destruct (Hfb _ (ex_intro _ _ (conj Hp He)))
        as [Hn|(He' & Hbf & Hbs)]; [left; exact Hn|].
      right. left. split; [exact He'|]. rewrite Hbf, Hbs. split; reflexivity.
    + right. left. unfold run. rewrite (resolve_primary_other rt _ _ _ Hp He).
      cbn [fst snd]. split; [eauto|split; reflexivity].
Qed.

(** Whenever the shim ends normally, both names are bound. *)
Lemma normal_run_binds_both (rt : runtime) :
  (run rt).1 = Normal tt →
  is_Some (bound (run rt).2 "frame_eval_func")
  ∧ is_Some (bound (run rt).2 "stop_frame_eval").
Proof.
  intros Hn.
  destruct (run_binding_cases rt) as [(_ & H)|[((e & He) & _)|((e & He) & _)]];
    [exact H|congruence|congruence].
Qed.

(** C6, as the code has it.  If the default provider does not define
    [frame_eval_func] without [stop_frame_eval], the two names are bound
    together or not at all: the shim either ends normally with both bound,
    or raises with neither bound. *)
Theorem capabilities_bound_together (rt : runtime) :
  default_not_partial rt →
  ((run rt).1 = Normal tt
   ∧ is_Some (bound (run rt).2 "frame_eval_func")
   ∧ is_Some (bound (run rt).2 "stop_frame_eval"))
  ∨ ((∃ e, (run rt).1 = Raised e)
     ∧ bound (run rt).2 "frame_eval_func" = None
     ∧ bound (run rt).2 "stop_frame_eval" = None).
Proof.
  intros Hd.
  destruct (run_binding_cases rt)
    as [Hboth|[Hnone|(_ & m & f & e' & Hi & Hf & Hs)]].
  - left. exact Hboth.
  - right. exact Hnone.
  - destruct (Hd m f Hi Hf) as [s Hs'].
    rewrite Hs in Hs'. discriminate Hs'.
Qed.

Lemma capabilities_bound_together_witness :
  let rt := linux39 [(default_provider,
                      provider_module default_provider capabilities)] in
  ((run rt).1 = Normal tt
   ∧ is_Some (bound (run rt).2 "frame_eval_func")
   ∧ is_Some (bound (run rt).2 "stop_frame_eval"))
  ∨ ((∃ e, (run rt).1 = Raised e)
     ∧ bound (run rt).2 "frame_eval_func" = None
     ∧ bound (run rt).2 "stop_frame_eval" = None).
Proof.
  cbv zeta. apply capabilities_bound_together.
  intros m f Hi Hf. vm_compute in Hi. injection Hi as <-.
  eexists. reflexivity.
Defined.

(** ** The errors surfaced (C8) *)

(** C8, as the specification words it, fails.  A qualified provider that
    lacks [stop_frame_eval] makes line 28 raise an [AttributeError], which
    [except ImportError] does not catch: an error that is not an
    [ImportError] escapes. *)
Lemma missing_symbol_raises_attribute_error :
  let q := "_pydevd_frame_eval.pydevd_frame_evaluator_linux_39_64" in
  let rt := linux39 [(q, provider_module q ["frame_eval_func"])] in
  (run rt).1 = Raised (Exn AttributeError "stop_frame_eval")
  ∧ isinstance_ImportError (Exn AttributeError "stop_frame_eval") = false.
Proof. cbv zeta. split; vm_compute; reflexivity. Qed.

Lemma getattr_raises o attr e :
  getattr o attr = Raised e → exn_class e = AttributeError.
Proof.
  unfold getattr. intros H.
  destruct o as [b|s|q|n d]; try (injection H as <-; reflexivity).
  destruct (dict_get d attr); [discriminate H|].
  injection H as <-. reflexivity.
Qed.

Lemma load_provider_errors rt mod_name check_name st e :
  imports_raise_ImportError rt →
  (load_provider rt mod_name check_name st).1 = Raised e →
  isinstance_ImportError e = true ∨ exn_class e = AttributeError.
Proof.
  intros Hrt. rewrite load_provider_run. cbv zeta.
  destruct (builtin_import rt check_name []) as [pkg|e0] eqn:Hi.
  2:{ cbn [fst]. intros [= <-]. left. exact (Hrt _ _ _ Hi). }
  destruct (getattr pkg mod_name) as [provider|e0] eqn:Hp.
  2:{ cbn [fst]. intros [= <-]. right. exact (getattr_raises _ _ _ Hp). }
  destruct (getattr provider "frame_eval_func") as [f|e0] eqn:Hf.
  2:{ cbn [fst]. intros [= <-]. right. exact (getattr_raises _ _ _ Hf). }
  destruct (getattr provider "stop_frame_eval") as [s|e0] eqn:Hs.
  2:{ cbn [fst]. intros [= <-]. right. exact (getattr_raises _ _ _ Hs). }
  cbn [fst]. intros H. discriminate H.
Qed.

Lemma fallback_body_errors rt st e :
  imports_raise_ImportError rt →
  (fallback_body rt st).1 = Raised e →
  isinstance_ImportError e = true ∨ exn_class e = AttributeError.
Proof.
  intros Hrt.
  destruct (builtin_import rt "struct" []) as [ms|e0] eqn:Hs.
  2:{ unfold fallback_body. py_step. py_run Hs.
      intros [= <-]. left. exact (Hrt _ _ _ Hs). }
  destruct (builtin_import rt "sys" []) as [msys|e0] eqn:Hy.
  2:{ unfold fallback_body. py_step. py_run Hs. py_run Hy.
      intros [= <-]. left. exact (Hrt _ _ _ Hy). }
  destruct (sys_maxsize rt) as [m|e0] eqn:Hm.
  2:{ rewrite (fallback_body_query_raises rt st ms msys e0 Hs Hy Hm).
      intros [= <-]. left. reflexivity. }
  rewrite (fallback_body_reaches_load rt st ms msys m Hs Hy Hm).
  apply load_provider_errors. exact Hrt.
Qed.

(** C8, as the code has it.  When the interpreter's imports fail with
    import errors only, every exception the shim raises is an
    [ImportError] (no module under the default name or under the computed
    name, or [sys.maxsize] cannot be evaluated) or an [AttributeError]
    (the object returned by the qualified import lacks the provider
    attribute, or the provider lacks one of the two symbols). *)
Theorem surfaced_errors (rt : runtime) (e : exn) :
  imports_raise_ImportError rt →
  (run rt).1 = Raised e →
  isinstance_ImportError e = true ∨ exn_class e = AttributeError.
Proof.
  intros Hrt.
  pose proof (primary_run rt initial) as Hp. cbv zeta in Hp.
  destruct (builtin_import rt default_provider capabilities) as [m|e0] eqn:Hi.
  - destruct (getattr m "frame_eval_func") as [f|ef].
    + destruct (getattr m "stop_frame_eval") as [s|es].
      * unfold run. rewrite (resolve_primary_normal rt _ _ Hp).
        intros H. discriminate H.
      * unfold run. rewrite (resolve_enters_fallback rt _ _ _ Hp eq_refl).
        apply fallback_body_errors. exact Hrt.
    + unfold run. rewrite (resolve_enters_fallback rt _ _ _ Hp eq_refl).
      apply fallback_body_errors. exact Hrt.
  - unfold run.
    rewrite (resolve_enters_fallback rt _ _ _ Hp (Hrt _ _ _ Hi)).
    apply fallback_body_errors. exact Hrt.
Qed.

Lemma surfaced_errors_witness :
  isinstance_ImportError
    (Exn ModuleNotFoundError
       "_pydevd_frame_eval.pydevd_frame_evaluator_linux_39_64") = true
  ∨ exn_class
      (Exn ModuleNotFoundError
         "_pydevd_frame_eval.pydevd_frame_evaluator_linux_39_64")
    = AttributeError.
Proof.
  apply (surfaced_errors (linux39 [])).
  - intros name fromlist e. unfold linux39, builtin_import, site_import.
    destruct (dict_get _ name) as [leaf|].
    + destruct fromlist; [destruct (split_dot name) as [[pkg sub]|]|];
        intros H; discriminate H.
    + intros [= <-]. reflexivity.
  - reflexivity.
Defined.

(** * Further properties of the shim *)

(** ** Strings *)

Lemma string_length_app (s t : string) :
  String.length (s ++ t) = (String.length s + String.length t)%nat.
Proof.
  induction s as [|c s IH]; [reflexivity|].
  change (S (String.length (s ++ t)) = S (String.length s + String.length t)).
  now rewrite IH.
Qed.

(** Two concatenations with heads of equal length agree part by part. *)
Lemma string_app_split (s1 s2 t1 t2 : string) :
  String.length s1 = String.length s2 →
  s1 ++ t1 = s2 ++ t2 → s1 = s2 ∧ t1 = t2.
Proof.
  revert s2. induction s1 as [|c s1 IH]; intros [|d s2] Hl H;
    try discriminate Hl.
  - split; [reflexivity|exact H].
  - change (String c (s1 ++ t1) = String d (s2 ++ t2)) in H.
    injection H as -> H. injection Hl as Hl.
    destruct (IH s2 Hl H) as [-> ->]. split; reflexivity.
Qed.

Lemma plat_of_length b : String.length (plat_of b) = 2%nat.
Proof. destruct b; reflexivity. Qed.

Lemma plat_of_inj b1 b2 : plat_of b1 = plat_of b2 → b1 = b2.
Proof. destruct b1, b2; intros H; try reflexivity; discriminate H. Qed.

(** ** More steps of the fallback path *)

Section FurtherSteps.

Variable rt : runtime.

Lemma enters_fallback_log st :
  enters_fallback rt st → log st = [EvImport default_provider capabilities].
Proof.
  intros (e & Hp & _).
  pose proof (primary_run rt initial) as Hr. cbv zeta in Hr.
  rewrite Hp in Hr.
  destruct (builtin_import rt default_provider capabilities) as [m|e0].
  - destruct (getattr m "frame_eval_func") as [f|ef].
    + destruct (getattr m "stop_frame_eval") as [s|es];
        [discriminate Hr|injection Hr as _ ->; reflexivity].
    + injection Hr as _ ->; reflexivity.
  - injection Hr as _ ->; reflexivity.
Qed.

Lemma fallback_body_struct_raises st e :
  builtin_import rt "struct" [] = Raised e →
  fallback_body rt st
  = (Raised e, State (ns st) (log st ++ [EvImport "struct" []])).
Proof. intros Hs. unfold fallback_body. py_step. py_run Hs. reflexivity. Qed.

Lemma fallback_body_sys_raises st ms e :
  builtin_import rt "struct" [] = Normal ms →
  builtin_import rt "sys" [] = Raised e →
  fallback_body rt st
  = (Raised e,
     State (<["struct" := ms]> (ns st))
           (log st ++ [EvImport "struct" []; EvImport "sys" []])).
Proof.
  intros Hs Hy. unfold fallback_body. py_step. py_run Hs. py_run Hy.
  now rewrite <- !app_assoc.
Qed.

(** The calls of the fallback path, after the import of the default
    provider, are an initial part of the longest trace. *)
Lemma fallback_body_log st :
  ∃ l, log (fallback_body rt st).2 = (log st ++ l)%list
       ∧ (EvImport default_provider capabilities :: l)
           `prefix_of` expected_trace rt.
Proof.
  unfold expected_trace, full_trace.
  destruct (builtin_import rt "struct" []) as [ms|e] eqn:Hs.
  2:{ rewrite (fallback_body_struct_raises st e Hs).
      exists [EvImport "struct" []]. split; [reflexivity|].
      destruct (sys_maxsize rt); by eexists. }
  destruct (builtin_import rt "sys" []) as [msys|e] eqn:Hy.
  2:{ rewrite (fallback_body_sys_raises st ms e Hs Hy).
      exists [EvImport "struct" []; EvImport "sys" []]. split; [reflexivity|].
      destruct (sys_maxsize rt); by eexists. }
  destruct (sys_maxsize rt) as [m|e] eqn:Hm.
  2:{ rewrite (fallback_body_query_raises rt st ms msys e Hs Hy Hm).
      exists [EvImport "struct" []; EvImport "sys" []; EvMaxsize].
      split; [reflexivity|]. by exists []. }
  rewrite (fallback_body_reaches_load rt st ms msys m Hs Hy Hm).
  rewrite load_provider_log. unfold before_load. cbn [log].
  eexists. split; [by rewrite <- app_assoc|]. by exists [].
Qed.

(** The fallback path assigns to the names of [shim_names] only. *)
Lemma fallback_body_binds_only st name :
  name ∉ shim_names → bound (fallback_body rt st).2 name = bound st name.
Proof.
  unfold shim_names. rewrite !not_elem_of_cons.
  intros (Hf & Hg & Hst & Hsy & Hb & Hp & Hmn & Hcn & Hmo & _).
  destruct (builtin_import rt "struct" []) as [ms|e] eqn:Hs.
  2:{ by rewrite (fallback_body_struct_raises st e Hs). }
  destruct (builtin_import rt "sys" []) as [msys|e] eqn:Hy.
  2:{ rewrite (fallback_body_sys_raises st ms e Hs Hy).
      unfold bound. cbn [snd ns]. by rewrite lookup_insert_ne. }
  destruct (sys_maxsize rt) as [m|e] eqn:Hm.
  2:{ rewrite (fallback_body_query_raises rt st ms msys e Hs Hy Hm).
      unfold bound. cbn [snd ns]. by rewrite !lookup_insert_ne. }
  rewrite (fallback_body_reaches_load rt st ms msys m Hs Hy Hm).
  rewrite load_provider_binds_only by done.
  unfold bound, before_load. cbn [ns]. by rewrite !lookup_insert_ne.
Qed.

(** A normal end of lines 26 to 28 binds both names to the symbols of the
    module that [mod] holds. *)
Lemma load_provider_normal mod_name check_name st :
  (load_provider rt mod_name check_name st).1 = Normal tt →
  ∃ provider f s,
    getattr provider "frame_eval_func" = Normal f
    ∧ getattr provider "stop_frame_eval" = Normal s
    ∧ bound (load_provider rt mod_name check_name st).2 "mod" = Some provider
    ∧ bound (load_provider rt mod_name check_name st).2 "frame_eval_func"
      = Some f
    ∧ bound (load_provider rt mod_name check_name st).2 "stop_frame_eval"
      = Some s.
Proof.
  rewrite load_provider_run. cbv zeta. unfold bound.
  destruct (builtin_import rt check_name []) as [pkg|e];
    [|intros H; discriminate H].
  destruct (getattr pkg mod_name) as [provider|e];
    [|intros H; discriminate H].
  destruct (getattr provider "frame_eval_func") as [f|e] eqn:Hf;
    [|intros H; discriminate H].
  destruct (getattr provider "stop_frame_eval") as [s|e] eqn:Hs;
    [|intros H; discriminate H].
  intros _. exists provider, f, s. cbn [snd ns].
  repeat split; try assumption; by simplify_map_eq.
Qed.

(** A normal end of lines 26 to 28 comes from an import that returned an
    object whose attribute [mod_name] is a module with both symbols. *)
Lemma load_provider_normal_from mod_name check_name st :
  (load_provider rt mod_name check_name st).1 = Normal tt →
  ∃ pkg provider f s,
    builtin_import rt check_name [] = Normal pkg
    ∧ getattr pkg mod_name = Normal provider
    ∧ getattr provider "frame_eval_func" = Normal f
    ∧ getattr provider "stop_frame_eval" = Normal s
    ∧ bound (load_provider rt mod_name check_name st).2 "mod" = Some provider
    ∧ bound (load_provider rt mod_name check_name st).2 "frame_eval_func"
      = Some f
    ∧ bound (load_provider rt mod_name check_name st).2 "stop_frame_eval"
      = Some s.
Proof.
  rewrite load_provider_run. cbv zeta. unfold bound.
  destruct (builtin_import rt check_name []) as [pkg|e];
    [|intros H; discriminate H].
  destruct (getattr pkg mod_name) as [provider|e] eqn:Hp;
    [|intros H; discriminate H].
  destruct (getattr provider "frame_eval_func") as [f|e] eqn:Hf;
    [|intros H; discriminate H].
  destruct (getattr provider "stop_frame_eval") as [s|e] eqn:Hs;
    [|intros H; discriminate H].
  intros _. exists pkg, provider, f, s. cbn [snd ns].
  repeat split; try assumption; by simplify_map_eq.
Qed.

End FurtherSteps.

(** A run is line 2 alone, or line 2 raising an [ImportError] followed by
    the fallback path. *)
Lemma run_cases (rt : runtime) :
  (run rt = primary rt initial
   ∧ ((primary rt initial).1 = Normal tt
      ∨ ∃ e, (primary rt initial).1 = Raised e
             ∧ isinstance_ImportError e = false))
  ∨ (∃ st1, enters_fallback rt st1 ∧ run rt = fallback_body rt st1).
Proof.
  destruct (primary rt initial) as [[[]|e] st1] eqn:Hp.
  - left. split; [exact (resolve_primary_normal rt _ _ Hp)|left; reflexivity].
  - destruct (isinstance_ImportError e) eqn:He.
    + right. exists st1. split; [exists e; auto|].
      exact (resolve_enters_fallback rt _ _ _ Hp He).
    + left. split; [exact (resolve_primary_other rt _ _ _ Hp He)|].
      right. exists e. auto.
Qed.

(** ** Errors other than a missing provider *)

(** X1. If the import of the default provider raises an exception that is
    not an [ImportError], the shim raises that exception: the fallback path
    is not entered, the failed import is the only call made and nothing is
    bound. *)
Theorem default_other_error_propagates (rt : runtime) (e : exn) :
  builtin_import rt default_provider capabilities = Raised e →
  isinstance_ImportError e = false →
  run rt = (Raised e, State ∅ [EvImport default_provider capabilities]).
Proof.
  intros Hi He. unfold run. apply resolve_primary_other; [|exact He].
  rewrite primary_run, Hi. reflexivity.
Qed.

Lemma default_other_error_propagates_witness :
  run (linux39_with broken_default_import)
  = (Raised (Exn ValueError "binary incompatibility"),
     State ∅ [EvImport default_provider capabilities]).
Proof. apply default_other_error_propagates; reflexivity. Defined.

(** X3. On the fallback path, if [import struct] raises, the shim raises
    that exception, whatever its class; [struct] is the last call made and
    the namespace is as line 2 left it. *)
Theorem struct_import_failure_propagates (rt : runtime) (st1 : state)
    (e : exn) :
  enters_fallback rt st1 →
  builtin_import rt "struct" [] = Raised e →
  run rt
  = (Raised e,
     State (ns st1)
           [EvImport default_provider capabilities; EvImport "struct" []]).
Proof.
  intros Hp Hs. rewrite (run_enters_fallback rt st1 Hp).
  rewrite (fallback_body_struct_raises rt st1 e Hs).
  now rewrite (enters_fallback_log rt st1 Hp).
Qed.

Lemma struct_import_failure_propagates_witness :
  run (linux39_with (site_import []))
  = (Raised (Exn ModuleNotFoundError "struct"),
     State (ns after_default_absent)
           [EvImport default_provider capabilities; EvImport "struct" []]).
Proof.
  apply struct_import_failure_propagates; [|reflexivity].
  eexists. split; reflexivity.
Defined.

(** X4. On the fallback path, if [import sys] raises, the shim raises that
    exception with [struct] bound and [sys.maxsize] not queried. *)
Theorem sys_import_failure_propagates (rt : runtime) (st1 : state)
    (ms : value) (e : exn) :
  enters_fallback rt st1 →
  builtin_import rt "struct" [] = Normal ms →
  builtin_import rt "sys" [] = Raised e →
  run rt
  = (Raised e,
     State (<["struct" := ms]> (ns st1))
           [EvImport default_provider capabilities;
            EvImport "struct" []; EvImport "sys" []]).
Proof.
  intros Hp Hs Hy. rewrite (run_enters_fallback rt st1 Hp).
  rewrite (fallback_body_sys_raises rt st1 ms e Hs Hy).
  now rewrite (enters_fallback_log rt st1 Hp).
Qed.

Lemma sys_import_failure_propagates_witness :
  run (linux39_with (site_import [("struct", VModule "struct" [])]))
  = (Raised (Exn ModuleNotFoundError "sys"),
     State (<["struct" := VModule "struct" []]> (ns after_default_absent))
           [EvImport default_provider capabilities;
            EvImport "struct" []; EvImport "sys" []]).
Proof.
  apply sys_import_failure_propagates; [|reflexivity|reflexivity].
  eexists. split; reflexivity.
Defined.

(** ** Lines 26 to 28 *)

(** X5. When the object returned by the import of line 26 has no attribute
    named by the provider name, line 27 raises an [AttributeError] that
    reaches the importer; [mod] is left bound to the object returned and
    neither capability is bound. *)
Theorem missing_provider_attribute (rt : runtime) (ms msys : value) (m : Z)
    (pkg : value) (e : exn) :
  default_absent rt →
  builtin_import rt "struct" [] = Normal ms →
  builtin_import rt "sys" [] = Normal msys →
  sys_maxsize rt = Normal m →
  builtin_import rt
    (lookup_key (provider_name rt (plat_of (is_64bits_of m)))) []
  = Normal pkg →
  getattr pkg (provider_name rt (plat_of (is_64bits_of m))) = Raised e →
  (run rt).1 = Raised e
  ∧ exn_class e = AttributeError
  ∧ bound (run rt).2 "mod" = Some pkg
  ∧ bound (run rt).2 "frame_eval_func" = None
  ∧ bound (run rt).2 "stop_frame_eval" = None.
Proof.
  intros Hd Hs Hy Hm Hi Hp.
  rewrite (run_enters_fallback rt _ (default_absent_enters_fallback rt Hd)).
  rewrite (fallback_body_reaches_load rt _ ms msys m Hs Hy Hm).
  rewrite load_provider_run, Hi. cbv zeta. rewrite Hp.
  unfold bound, before_load. cbn [fst snd ns after_default_absent].
  split; [reflexivity|]. split; [exact (getattr_raises _ _ _ Hp)|].
  repeat split; by simplify_map_eq.
Qed.

Lemma missing_provider_attribute_witness :
  let q := "_pydevd_frame_eval.pydevd_frame_evaluator_linux_39_64" in
  let rt := linux39_with
              (leaf_import (stdlib_modules ++ [(q, provider_module q capabilities)])) in
  let e := Exn AttributeError "pydevd_frame_evaluator_linux_39_64" in
  (run rt).1 = Raised e
  ∧ exn_class e = AttributeError
  ∧ bound (run rt).2 "mod" = Some (provider_module q capabilities)
  ∧ bound (run rt).2 "frame_eval_func" = None
  ∧ bound (run rt).2 "stop_frame_eval" = None.
Proof.
  cbv zeta.
  apply (missing_provider_attribute _ (VModule "struct" [])
           (VModule "sys" []) (2 ^ 63 - 1)); try reflexivity.
  eexists. split; reflexivity.
Defined.

(** X6. The assignment of line 28 is all or nothing: when the provider has
    [frame_eval_func] but lacks [stop_frame_eval], the shim raises the
    [AttributeError] of the second read and [frame_eval_func] is not bound
    either. *)
Theorem tuple_assignment_atomic (rt : runtime) (ms msys : value) (m : Z)
    (pkg provider f : value) (e : exn) :
  default_absent rt →
  builtin_import rt "struct" [] = Normal ms →
  builtin_import rt "sys" [] = Normal msys →
  sys_maxsize rt = Normal m →
  builtin_import rt
    (lookup_key (provider_name rt (plat_of (is_64bits_of m)))) []
  = Normal pkg →
  getattr pkg (provider_name rt (plat_of (is_64bits_of m))) = Normal provider →
  getattr provider "frame_eval_func" = Normal f →
  getattr provider "stop_frame_eval" = Raised e →
  (run rt).1 = Raised e
  ∧ bound (run rt).2 "mod" = Some provider
  ∧ bound (run rt).2 "frame_eval_func" = None
  ∧ bound (run rt).2 "stop_frame_eval" = None.
Proof.
  intros Hd Hs Hy Hm Hi Hp Hf Hg.
  rewrite (run_enters_fallback rt _ (default_absent_enters_fallback rt Hd)).
  rewrite (fallback_body_reaches_load rt _ ms msys m Hs Hy Hm).
  rewrite load_provider_run, Hi. cbv zeta. rewrite Hp, Hf, Hg.
  unfold bound, before_load. cbn [fst snd ns after_default_absent].
  repeat split; by simplify_map_eq.
Qed.

Lemma tuple_assignment_atomic_witness :
  let q := "_pydevd_frame_eval.pydevd_frame_evaluator_linux_39_64" in
  let rt := linux39 [(q, provider_module q ["frame_eval_func"])] in
  (run rt).1 = Raised (Exn AttributeError "stop_frame_eval")
  ∧ bound (run rt).2 "mod" = Some (provider_module q ["frame_eval_func"])
  ∧ bound (run rt).2 "frame_eval_func" = None
  ∧ bound (run rt).2 "stop_frame_eval" = None.
Proof.
  cbv zeta.
  apply (tuple_assignment_atomic _ (VModule "struct" [])
           (VModule "sys" []) (2 ^ 63 - 1)
           (VModule "_pydevd_frame_eval"
              [("pydevd_frame_evaluator_linux_39_64",
                provider_module
                  "_pydevd_frame_eval.pydevd_frame_evaluator_linux_39_64"
                  ["frame_eval_func"])])
           _ (VFunc "_pydevd_frame_eval.pydevd_frame_evaluator_linux_39_64.frame_eval_func"));
    try reflexivity.
  eexists. split; reflexivity.
Defined.

(** ** The default provider lacking a symbol *)

(** X2. A default provider whose import succeeds but which lacks one of
    the two symbols is treated like an absent one: the fallback path is
    taken, and when the qualified provider is complete the shim ends
    normally with both names bound to the qualified provider's symbols,
    whatever line 2 had bound. *)
Theorem incomplete_default_falls_back (rt : runtime) (d : value) (e0 : exn)
    (ms msys : value) (m : Z) (pkg provider f s : value) :
  builtin_import rt default_provider capabilities = Normal d →
  getattr d "frame_eval_func" = Raised e0
  ∨ getattr d "stop_frame_eval" = Raised e0 →
  builtin_import rt "struct" [] = Normal ms →
  builtin_import rt "sys" [] = Normal msys →
  sys_maxsize rt = Normal m →
  builtin_import rt
    (lookup_key (provider_name rt (plat_of (is_64bits_of m)))) []
  = Normal pkg →
  getattr pkg (provider_name rt (plat_of (is_64bits_of m))) = Normal provider →
  getattr provider "frame_eval_func" = Normal f →
  getattr provider "stop_frame_eval" = Normal s →
  (run rt).1 = Normal tt
  ∧ log (run rt).2
    = full_trace (lookup_key (provider_name rt (plat_of (is_64bits_of m))))
  ∧ bound (run rt).2 "frame_eval_func" = Some f
  ∧ bound (run rt).2 "stop_frame_eval" = Some s.
Proof.
  intros Hi Hd Hs Hy Hm Hq Hp Hf Hg.
  assert (∃ st1, enters_fallback rt st1) as [st1 Hst1].
  { pose proof (primary_run rt initial) as Hr. cbv zeta in Hr.
    rewrite Hi in Hr.
    destruct (getattr d "frame_eval_func") as [f0|ef].
    - destruct (getattr d "stop_frame_eval") as [s0|es].
      + destruct Hd as [Hd|Hd]; discriminate Hd.
      + eexists. eexists. split; [exact Hr|reflexivity].
    - eexists. eexists. split; [exact Hr|reflexivity]. }
  rewrite (run_enters_fallback rt st1 Hst1).
  rewrite (fallback_body_reaches_load rt st1 ms msys m Hs Hy Hm).
  rewrite load_provider_run, Hq. cbv zeta. rewrite Hp, Hf, Hg.
  unfold bound, before_load, full_trace. cbn [fst snd ns log].
  rewrite (enters_fallback_log rt st1 Hst1).
  repeat split; by simplify_map_eq.
Qed.

Lemma incomplete_default_falls_back_witness :
  let q := "_pydevd_frame_eval.pydevd_frame_evaluator_linux_39_64" in
  let rt := linux39 [(default_provider,
                      provider_module default_provider ["frame_eval_func"]);
                     (q, provider_module q capabilities)] in
  (run rt).1 = Normal tt
  ∧ log (run rt).2 = full_trace q
  ∧ bound (run rt).2 "frame_eval_func" = Some (VFunc (q ++ ".frame_eval_func"))
  ∧ bound (run rt).2 "stop_frame_eval" = Some (VFunc (q ++ ".stop_frame_eval")).
Proof.
  cbv zeta.
  apply (incomplete_default_falls_back
           (linux39
              [(default_provider,
                provider_module default_provider ["frame_eval_func"]);
               ("_pydevd_frame_eval.pydevd_frame_evaluator_linux_39_64",
                provider_module
                  "_pydevd_frame_eval.pydevd_frame_evaluator_linux_39_64"
                  capabilities)])
           (provider_module default_provider ["frame_eval_func"])
           (Exn AttributeError "stop_frame_eval")
           (VModule "struct" []) (VModule "sys" []) (2 ^ 63 - 1)
           (VModule "_pydevd_frame_eval"
              [("pydevd_frame_evaluator_linux_39_64",
                provider_module
                  "_pydevd_frame_eval.pydevd_frame_evaluator_linux_39_64"
                  capabilities)])
           (provider_module
              "_pydevd_frame_eval.pydevd_frame_evaluator_linux_39_64"
              capabilities));
    try reflexivity.
  right. reflexivity.
Defined.

(** ** What a run never does *)

(** X7. Whatever the interpreter answers, the calls of a run are a
    non-empty initial part of: the import of the default provider,
    [import struct], [import sys], the evaluation of [sys.maxsize] and,
    where that evaluates, the import under the computed key.  The shim
    makes no other call, none twice, and none out of this order. *)
Theorem interpreter_calls_in_order (rt : runtime) :
  log (run rt).2 `prefix_of` expected_trace rt ∧ log (run rt).2 ≠ [].
Proof.
  destruct (run_cases rt) as [(Hr & _)|(st1 & Hst1 & Hr)]; rewrite Hr.
  - rewrite primary_run. cbv zeta.
    assert (Hpre : [EvImport default_provider capabilities]
                   `prefix_of` expected_trace rt)
      by (unfold expected_trace, full_trace;
          destruct (sys_maxsize rt); by eexists).
    destruct (builtin_import rt default_provider capabilities) as [d|e];
      [|split; [exact Hpre|discriminate]].
    destruct (getattr d "frame_eval_func") as [f|ef];
      [|split; [exact Hpre|discriminate]].
    destruct (getattr d "stop_frame_eval") as [s|es];
      split; solve [exact Hpre|discriminate].
  - destruct (fallback_body_log rt st1) as (l & Hl & Hpre).
    rewrite Hl, (enters_fallback_log rt st1 Hst1).
    split; [exact Hpre|discriminate].
Qed.

(** X8. The shim assigns to nine names only.  Started in a namespace
    that does not shadow the builtins it uses, it leaves every name outside
    [shim_names] as it found it, bound to the same value or unbound,
    however the run ends. *)
Theorem namespace_footprint (rt : runtime) (st : state) (name : string) :
  no_shadowing st →
  name ∉ shim_names →
  bound (resolve rt st).2 name = bound st name.
Proof.
  intros _ Hn.
  assert (Hcap : name ≠ "frame_eval_func" ∧ name ≠ "stop_frame_eval").
  { unfold shim_names in Hn. rewrite !not_elem_of_cons in Hn. tauto. }
  destruct Hcap as [Hf Hs].
  pose proof (primary_binds_only_capabilities rt st name Hf Hs) as Hprim.
  destruct (primary rt st) as [[[]|e] st1] eqn:Hp; cbn [snd] in Hprim.
  - rewrite (resolve_primary_normal rt _ _ Hp). exact Hprim.
  - destruct (isinstance_ImportError e) eqn:He.
    + rewrite (resolve_enters_fallback rt _ _ _ Hp He).
      rewrite (fallback_body_binds_only rt st1 name Hn). exact Hprim.
    + rewrite (resolve_primary_other rt _ _ _ Hp He). exact Hprim.
Qed.

Lemma namespace_footprint_witness :
  let q := "_pydevd_frame_eval.pydevd_frame_evaluator_linux_39_64" in
  bound (resolve (linux39 [(q, provider_module q capabilities)])
           preset_namespace).2 "__name__"
  = Some (VStr "_pydevd_frame_eval.pydevd_frame_eval_cython_wrapper").
Proof.
  cbv zeta.
  change (Some (VStr "_pydevd_frame_eval.pydevd_frame_eval_cython_wrapper"))
    with (bound preset_namespace "__name__").
  apply namespace_footprint.
  - repeat split; reflexivity.
  - unfold shim_names. rewrite !not_elem_of_cons.
    repeat split; try discriminate. apply not_elem_of_nil.
Defined.

(** ** What a normal end guarantees *)

(** X9. Whenever the shim ends normally, the two names are bound to the
    [frame_eval_func] and the [stop_frame_eval] of one and the same module:
    either the module the import of the default provider returned, or the
    attribute, named by the provider name, of the object the import under
    the computed key returned, which [mod] then holds.  They are never one
    symbol of each. *)
Theorem names_from_one_provider (rt : runtime) :
  (run rt).1 = Normal tt →
  (∃ d f s,
     builtin_import rt default_provider capabilities = Normal d
     ∧ getattr d "frame_eval_func" = Normal f
     ∧ getattr d "stop_frame_eval" = Normal s
     ∧ bound (run rt).2 "frame_eval_func" = Some f
     ∧ bound (run rt).2 "stop_frame_eval" = Some s)
  ∨ (∃ m pkg provider f s,
       sys_maxsize rt = Normal m
       ∧ builtin_import rt
           (lookup_key (provider_name rt (plat_of (is_64bits_of m)))) []
         = Normal pkg
       ∧ getattr pkg (provider_name rt (plat_of (is_64bits_of m)))
         = Normal provider
       ∧ getattr provider "frame_eval_func" = Normal f
       ∧ getattr provider "stop_frame_eval" = Normal s
       ∧ bound (run rt).2 "mod" = Some provider
       ∧ bound (run rt).2 "frame_eval_func" = Some f
       ∧ bound (run rt).2 "stop_frame_eval" = Some s).
Proof.
  destruct (run_cases rt) as [(Hr & _)|(st1 & Hst1 & Hr)]; rewrite Hr.
  - rewrite primary_run. cbv zeta. unfold bound.
    destruct (builtin_import rt default_provider capabilities) as [d|e];
      [|intros H; discriminate H].
    destruct (getattr d "frame_eval_func") as [f|ef] eqn:Hf;
      [|intros H; discriminate H].
    destruct (getattr d "stop_frame_eval") as [s|es] eqn:Hs;
      [|intros H; discriminate H].
    intros _. left. exists d, f, s. cbn [snd ns].
    repeat split; try assumption; by simplify_map_eq.
  - destruct (builtin_import rt "struct" []) as [ms|e] eqn:Hs.
    2:{ rewrite (fallback_body_struct_raises rt st1 e Hs).
        intros H; discriminate H. }
    destruct (builtin_import rt "sys" []) as [msys|e] eqn:Hy.
    2:{ rewrite (fallback_body_sys_raises rt st1 ms e Hs Hy).
        intros H; discriminate H. }
    destruct (sys_maxsize rt) as [m|e] eqn:Hm.
    2:{ rewrite (fallback_body_query_raises rt st1 ms msys e Hs Hy Hm).
        intros H; discriminate H. }
    rewrite (fallback_body_reaches_load rt st1 ms msys m Hs Hy Hm).
    intros Hn. right.
    destruct (load_provider_normal_from rt _ _ _ Hn)
      as (pkg & provider & f & s & Hi & Hp & Hf & Hg & Hmod & Hbf & Hbs).
    exists m, pkg, provider, f, s. auto 10.
Qed.

Lemma names_from_one_provider_witness :
  let q := "_pydevd_frame_eval.pydevd_frame_evaluator_linux_39_64" in
  let rt := linux39 [(default_provider,
                      provider_module default_provider ["frame_eval_func"]);
                     (q, provider_module q capabilities)] in
  (∃ d f s,
     builtin_import rt default_provider capabilities = Normal d
     ∧ getattr d "frame_eval_func" = Normal f
     ∧ getattr d "stop_frame_eval" = Normal s
     ∧ bound (run rt).2 "frame_eval_func" = Some f
     ∧ bound (run rt).2 "stop_frame_eval" = Some s)
  ∨ (∃ m pkg provider f s,
       sys_maxsize rt = Normal m
       ∧ builtin_import rt
           (lookup_key (provider_name rt (plat_of (is_64bits_of m)))) []
         = Normal pkg
       ∧ getattr pkg (provider_name rt (plat_of (is_64bits_of m)))
         = Normal provider
       ∧ getattr provider "frame_eval_func" = Normal f
       ∧ getattr provider "stop_frame_eval" = Normal s
       ∧ bound (run rt).2 "mod" = Some provider
       ∧ bound (run rt).2 "frame_eval_func" = Some f
       ∧ bound (run rt).2 "stop_frame_eval" = Some s).
Proof. cbv zeta. apply names_from_one_provider. reflexivity. Defined.

(** X12. After a normal end of the fallback path the seven helper names
    of lines 5 to 27 stay bound in the namespace of the shim, beside the
    two capabilities: the two modules, the boolean, the marker, the two
    names and the provider. *)
Theorem fallback_leaves_helper_names (rt : runtime) (st1 : state)
    (ms msys : value) (m : Z) :
  enters_fallback rt st1 →
  builtin_import rt "struct" [] = Normal ms →
  builtin_import rt "sys" [] = Normal msys →
  sys_maxsize rt = Normal m →
  (run rt).1 = Normal tt →
  bound (run rt).2 "struct" = Some ms
  ∧ bound (run rt).2 "sys" = Some msys
  ∧ bound (run rt).2 "is_64bits" = Some (VBool (is_64bits_of m))
  ∧ bound (run rt).2 "plat" = Some (VStr (plat_of (is_64bits_of m)))
  ∧ bound (run rt).2 "mod_name"
    = Some (VStr (provider_name rt (plat_of (is_64bits_of m))))
  ∧ bound (run rt).2 "check_name"
    = Some (VStr (lookup_key (provider_name rt (plat_of (is_64bits_of m)))))
  ∧ ∃ provider f s,
      bound (run rt).2 "mod" = Some provider
      ∧ getattr provider "frame_eval_func" = Normal f
      ∧ getattr provider "stop_frame_eval" = Normal s
      ∧ bound (run rt).2 "frame_eval_func" = Some f
      ∧ bound (run rt).2 "stop_frame_eval" = Some s.
Proof.
  intros Hp Hs Hy Hm.
  rewrite (run_enters_fallback rt st1 Hp).
  rewrite (fallback_body_reaches_load rt st1 ms msys m Hs Hy Hm).
  intros Hn. rewrite !load_provider_binds_only by done.
  unfold bound at 1 2 3 4 5 6. unfold before_load. cbn [ns].
  repeat (split; [by simplify_map_eq|]).
  destruct (load_provider_normal rt _ _ _ Hn)
    as (provider & f & s & Hf & Hg & Hmod & Hbf & Hbs).
  exists provider, f, s. auto.
Qed.

Lemma fallback_leaves_helper_names_witness :
  let q := "_pydevd_frame_eval.pydevd_frame_evaluator_linux_39_64" in
  let rt := linux39 [(q, provider_module q capabilities)] in
  bound (run rt).2 "struct" = Some (VModule "struct" [])
  ∧ bound (run rt).2 "sys" = Some (VModule "sys" [])
  ∧ bound (run rt).2 "is_64bits" = Some (VBool (is_64bits_of (2 ^ 63 - 1)))
  ∧ bound (run rt).2 "plat" = Some (VStr (plat_of (is_64bits_of (2 ^ 63 - 1))))
  ∧ bound (run rt).2 "mod_name"
    = Some (VStr (provider_name rt (plat_of (is_64bits_of (2 ^ 63 - 1)))))
  ∧ bound (run rt).2 "check_name"
    = Some (VStr (lookup_key
                    (provider_name rt (plat_of (is_64bits_of (2 ^ 63 - 1))))))
  ∧ ∃ provider f s,
      bound (run rt).2 "mod" = Some provider
      ∧ getattr provider "frame_eval_func" = Normal f
      ∧ getattr provider "stop_frame_eval" = Normal s
      ∧ bound (run rt).2 "frame_eval_func" = Some f
      ∧ bound (run rt).2 "stop_frame_eval" = Some s.
Proof.
  cbv zeta.
  apply (fallback_leaves_helper_names
           (linux39 [("_pydevd_frame_eval.pydevd_frame_evaluator_linux_39_64",
                      provider_module
                        "_pydevd_frame_eval.pydevd_frame_evaluator_linux_39_64"
                        capabilities)])
           after_default_absent); try reflexivity.
  eexists. split; reflexivity.
Defined.

(** ** The key separates platforms and widths *)

(** X10. For one language version, the names computed by lines 12 to 25
    determine the platform and the pointer width: two interpreters of the
    same version that compute the same provider name and lookup key have
    the same [sys.platform] and the same width.  Binaries built for
    different platforms or widths are never looked up under one key. *)
Theorem key_determines_platform_and_width (rt1 rt2 : runtime)
    (b1 b2 : bool) (st1 st2 : state) :
  sys_version_info rt1 = sys_version_info rt2 →
  (compute_names rt1 b1 st1).1 = (compute_names rt2 b2 st2).1 →
  sys_platform rt1 = sys_platform rt2 ∧ b1 = b2.
Proof.
  intros Hv H. rewrite !compute_names_run in H. cbn [fst] in H.
  injection H as H _.
  unfold provider_name, qualified_name in H. rewrite Hv in H.
  apply (string_app_split "" "" _ _ eq_refl) in H as [_ H].
  assert (Hlen : String.length (sys_platform rt1)
                 = String.length (sys_platform rt2)).
  { apply (f_equal String.length) in H.
    rewrite !string_length_app, !plat_of_length in H. lia. }
  apply (string_app_split _ _ _ _ Hlen) in H as [Hplat H].
  apply (string_app_split "_" "_" _ _ eq_refl) in H as [_ H].
  apply (string_app_split (decimal _) (decimal _) _ _ eq_refl) in H as [_ H].
  apply (string_app_split (decimal _) (decimal _) _ _ eq_refl) in H as [_ H].
  apply (string_app_split "_" "_" _ _ eq_refl) in H as [_ H].
  split; [exact Hplat|exact (plat_of_inj _ _ H)].
Qed.

Lemma key_determines_platform_and_width_witness :
  sys_platform (linux39 []) = sys_platform (linux39 stdlib_modules)
  ∧ true = true.
Proof.
  apply (key_determines_platform_and_width (linux39 [])
           (linux39 stdlib_modules) true true initial after_default_absent);
    reflexivity.
Defined.
